(** * The file-hash page ([src/pages/file-hash.vue])

    The page owns two reactive fields, [filePath] and [hashResult], and two
    asynchronous functions, [selectFile] and [calculateHash].  Both talk to
    the host: the native dialog ([open]), the backend command
    ([invoke 'calculate_file_hash']) and the notification surface
    ([ElNotification]).

    The embedding is a small monad for [async] functions: a computation
    threads the page state, appends the effects it performs to a list of
    events, and completes by returning, by throwing, or not at all (an
    awaited promise that never settles).  The host's answers are a script
    carried by the state: each awaited call consumes the next answer. *)

From Stdlib Require Import String List Bool.
Import ListNotations.
Open Scope string_scope.
Open Scope list_scope.

(** ** Values exchanged with the host *)

(** One entry of the dialog's [filters] option. *)
Record DialogFilter : Type := {
  name : string;
  extensions : list string
}.

(** The options object handed to [open]. *)
Record OpenDialogOptions : Type := {
  multiple : bool;
  directory : bool;
  filters : list DialogFilter
}.

(** The argument object handed to [invoke]: [{ filePath: ... }]. *)
Record InvokeArgs : Type := { arg_filePath : string }.

(** The options object handed to [ElNotification]. *)
Record NotificationOptions : Type := {
  title : string;
  message : string;
  type : string
}.

(** [!s] for a string [s]: only the empty string is falsy. *)
Definition js_not (s : string) : bool :=
  match s with
  | EmptyString => true
  | String _ _ => false
  end.

(** A few of the values a backend can reject with, for concrete runs: a
    string, the object [{"toString": 1}], and the [TypeError] the runtime
    throws. *)
Inductive Rejection : Type :=
| Text (text : string)
| ToStringIsOne
| TypeError (description : string).

(** [String(e)] on these values.  A string converts to itself and an error
    to its name and description; on [{"toString": 1}] neither [toString],
    which is not callable, nor [valueOf] gives a primitive, and the
    conversion throws. *)
Definition Rejection_String (e : Rejection) : string + Rejection :=
  match e with
  | Text text => inl text
  | ToStringIsOne => inr (TypeError "Cannot convert object to primitive value")
  | TypeError description => inl ("TypeError: " ++ description)%string
  end.

(** ** The application shell ([App.vue])

    The shell lists the example pages in a menu and marks the one the
    current route belongs to. *)

Module App.

(** [s.startsWith(searchString)] *)
Definition startsWith (s searchString : string) : bool :=
  String.prefix searchString s.

(** The icon components the menu uses. *)
Inductive Icon : Type :=
| Hash.

(** One entry of [examples]. *)
Record Example : Type := {
  name : string;
  path : string;
  icon : Icon;
  isActive : bool
}.

(** [examples], computed from [route.path]. *)
Definition examples (route_path : string) : list Example :=
  [ {| name := "计算文件哈希值";
       path := "/file-hash";
       icon := Hash;
       isActive := startsWith route_path "/file-hash" |} ].

(** [activeExample]: [examples.value.find(example => example.isActive)],
    [None] standing for [undefined]. *)
Definition activeExample (route_path : string) : option Example :=
  find (fun example => isActive example) (examples route_path).

(** The menu's [:default-active="activeExample?.path"]. *)
Definition default_active (route_path : string) : option string :=
  match activeExample route_path with
  | Some example => Some (path example)
  | None => None
  end.

End App.

Section FileHash.

(** The values a promise can reject with, and JavaScript's [String(...)]
    conversion on them.  Both belong to the runtime, not to the page.
    [String(e)] either yields a string ([inl]) or throws ([inr], with the
    value thrown): it throws a [TypeError] on an object that cannot be
    converted to a primitive, such as [{"toString": 1}]. *)
Variable JsValue : Type.
Variable js_String : JsValue -> string + JsValue.

(** How an awaited promise settles. *)
Inductive Settled (A : Type) : Type :=
| Fulfilled (a : A)
| Rejected (e : JsValue).
Arguments Fulfilled {A} a.
Arguments Rejected {A} e.

(** The effects of the page, in the order they happen. *)
Inductive Event : Type :=
| EvSetFilePath (v : string)
| EvSetHashResult (v : string)
| EvOpen (options : OpenDialogOptions)
| EvOpenSettled (r : Settled (option string))
| EvInvoke (cmd : string) (args : InvokeArgs)
| EvInvokeSettled (r : Settled string)
| EvNotification (options : NotificationOptions).

(** The page state: the two refs, and what the host will answer to the
    coming [open] and [invoke] calls. *)
Record State : Type := {
  filePath : string;
  hashResult : string;
  dialog : list (Settled (option string));
  backend : list (Settled string)
}.

Definition with_filePath (v : string) (s : State) : State :=
  {| filePath := v; hashResult := hashResult s;
     dialog := dialog s; backend := backend s |}.

Definition with_hashResult (v : string) (s : State) : State :=
  {| filePath := filePath s; hashResult := v;
     dialog := dialog s; backend := backend s |}.

Definition with_dialog (d : list (Settled (option string))) (s : State) : State :=
  {| filePath := filePath s; hashResult := hashResult s;
     dialog := d; backend := backend s |}.

Definition with_backend (b : list (Settled string)) (s : State) : State :=
  {| filePath := filePath s; hashResult := hashResult s;
     dialog := dialog s; backend := b |}.

(** ** The monad of [async] functions *)

Inductive Completion (A : Type) : Type :=
| Returned (a : A)
| Thrown (e : JsValue)
| Pending.
Arguments Returned {A} a.
Arguments Thrown {A} e.
Arguments Pending {A}.

Definition Async (A : Type) : Type :=
  State -> Completion A * State * list Event.

Definition ret {A : Type} (a : A) : Async A :=
  fun s => (Returned a, s, []).

Definition bind {A B : Type} (m : Async A) (k : A -> Async B) : Async B :=
  fun s =>
    match m s with
    | (Returned a, s1, evs1) =>
        match k a s1 with
        | (c, s2, evs2) => (c, s2, evs1 ++ evs2)
        end
    | (Thrown e, s1, evs1) => (Thrown e, s1, evs1)
    | (Pending, s1, evs1) => (Pending, s1, evs1)
    end.

(** [try { body } catch (error) { handler }] *)
Definition try_catch {A : Type} (body : Async A) (handler : JsValue -> Async A)
  : Async A :=
  fun s =>
    match body s with
    | (Thrown e, s1, evs1) =>
        match handler e s1 with
        | (c, s2, evs2) => (c, s2, evs1 ++ evs2)
        end
    | done => done
    end.

Declare Scope async_scope.
Delimit Scope async_scope with async.
Notation "x <- m ;; k" := (bind m (fun x => k))
  (at level 61, m at next level, right associativity) : async_scope.
Notation "m ;; k" := (bind m (fun _ => k))
  (at level 61, right associativity) : async_scope.
Local Open Scope async_scope.

(** Reads and writes of the two refs. *)
Definition get_filePath : Async string :=
  fun s => (Returned (filePath s), s, []).

Definition set_filePath (v : string) : Async unit :=
  fun s =>
    (Returned tt, with_filePath v s, [EvSetFilePath v]).

Definition set_hashResult (v : string) : Async unit :=
  fun s =>
    (Returned tt, with_hashResult v s, [EvSetHashResult v]).

(** [await open(options)]: the dialog is shown, and the function resumes
    when the host settles the promise. *)
Definition open (options : OpenDialogOptions) : Async (option string) :=
  fun s =>
    match dialog s with
    | [] => (Pending, s, [EvOpen options])
    | r :: rest =>
        (match r with
         | Fulfilled v => Returned v
         | Rejected e => Thrown e
         end, with_dialog rest s, [EvOpen options; EvOpenSettled r])
    end.

(** [await invoke(cmd, args)], with the result read [as string]. *)
Definition invoke (cmd : string) (args : InvokeArgs) : Async string :=
  fun s =>
    match backend s with
    | [] => (Pending, s, [EvInvoke cmd args])
    | r :: rest =>
        (match r with
         | Fulfilled v => Returned v
         | Rejected e => Thrown e
         end, with_backend rest s, [EvInvoke cmd args; EvInvokeSettled r])
    end.

(** [ElNotification(options)], Element Plus's notification function: with
    a title, a string message and a type it shows the notification and
    returns its handle, which the page does not use. *)
Definition ElNotification (options : NotificationOptions) : Async unit :=
  fun s => (Returned tt, s, [EvNotification options]).

(** [String(value)], which may throw. *)
Definition to_String (value : JsValue) : Async string :=
  fun s =>
    (match js_String value with
     | inl text => Returned text
     | inr thrown => Thrown thrown
     end, s, []).

(** ** The page's functions *)

Definition calculateHash_title : string := "计算哈希值失败".

(** [filePath.value] is read twice, once by the guard and once for the
    request's argument.  In the [catch] block the argument object of
    [ElNotification] is built first, so [String(error)] runs, and may throw,
    before anything is shown. *)
Definition calculateHash : Async unit :=
  path <- get_filePath ;;
  if js_not path then ret tt
  else
    set_hashResult "" ;;
    try_catch
      (path' <- get_filePath ;;
       result <- invoke "calculate_file_hash" {| arg_filePath := path' |} ;;
       set_hashResult result)
      (fun error =>
         text <- to_String error ;;
         ElNotification {| title := calculateHash_title;
                           message := text;
                           type := "error" |}).

Definition selectFile_options : OpenDialogOptions :=
  {| multiple := false;
     directory := false;
     filters := [ {| name := "All Files"; extensions := ["*"] |} ] |}.

(** The body of [selectFile]'s [try] block.  [!selected] holds for [null]
    and for the empty string. *)
Definition selectFile_try : Async unit :=
  selected <- open selectFile_options ;;
  match selected with
  | None => ret tt
  | Some path =>
      if js_not path then ret tt
      else
        set_filePath path ;;
        calculateHash
  end.

Definition selectFile : Async unit :=
  try_catch selectFile_try (fun error => ret tt).

(** ** Reading a list of events *)

(** The notifications shown. *)
Fixpoint notifications (evs : list Event) : list NotificationOptions :=
  match evs with
  | [] => []
  | EvNotification n :: rest => n :: notifications rest
  | _ :: rest => notifications rest
  end.

(** The backend requests issued. *)
Fixpoint requests (evs : list Event) : list (string * InvokeArgs) :=
  match evs with
  | [] => []
  | EvInvoke cmd args :: rest => (cmd, args) :: requests rest
  | _ :: rest => requests rest
  end.

(** The values written to [filePath]. *)
Fixpoint filePath_writes (evs : list Event) : list string :=
  match evs with
  | [] => []
  | EvSetFilePath v :: rest => v :: filePath_writes rest
  | _ :: rest => filePath_writes rest
  end.

(** The values written to [hashResult]. *)
Fixpoint hashResult_writes (evs : list Event) : list string :=
  match evs with
  | [] => []
  | EvSetHashResult v :: rest => v :: hashResult_writes rest
  | _ :: rest => hashResult_writes rest
  end.

(** A path submitted to the backend, and the answer to that request once
    it has settled. *)
Record Submission : Type := {
  submitted : string;
  answer : option (Settled string)
}.

(** The request one run issued and the answer that run received.  A run
    awaits the promise of its own request, so among the events of one run
    the answer, when there is one, directly follows the request. *)
Fixpoint request_of_run (evs : list Event) : option Submission :=
  match evs with
  | [] => None
  | EvInvoke _ args :: rest =>
      Some {| submitted := arg_filePath args;
              answer := match rest with
                        | EvInvokeSettled r :: _ => Some r
                        | _ => None
                        end |}
  | _ :: rest => request_of_run rest
  end.

(** The latest submission of a history.  A history lists the events of
    each run, oldest run first; requests are told apart by the run that
    issued them. *)
Definition later_submission (acc : option Submission) (evs : list Event)
  : option Submission :=
  match request_of_run evs with
  | Some sub => Some sub
  | None => acc
  end.

Definition latest_submission (history : list (list Event)) : option Submission :=
  fold_left later_submission history None.

(** ** Sessions: one run after the other *)

(** A session is the page together with everything that has happened
    since it was mounted. *)
Record Session : Type := {
  page : State;
  log : list Event
}.

Definition run {A : Type} (m : Async A) (x : Session) : Completion A * Session :=
  match m (page x) with
  | (c, s, evs) => (c, {| page := s; log := log x ++ evs |})
  end.

Inductive Action : Type :=
| SelectFile
| CalculateHash.

Definition action_body (a : Action) : Async unit :=
  match a with
  | SelectFile => selectFile
  | CalculateHash => calculateHash
  end.

Definition perform (x : Session) (a : Action) : Session :=
  snd (run (action_body a) x).

(** Runs performed in turn, each from the state the one before it left,
    whether that run completed or was left suspended; a suspended run is
    not resumed.  [run_sequence], below, is the case in which every run
    starts after the run before it has completed. *)
Definition perform_all (acts : list Action) (x : Session) : Session :=
  fold_left perform acts x.

(** The freshly mounted page: [ref('')] twice, nothing has happened. *)
Definition mounted (d : list (Settled (option string)))
                   (b : list (Settled string)) : Session :=
  {| page := {| filePath := ""; hashResult := ""; dialog := d; backend := b |};
     log := [] |}.

(** The request [calculateHash] issues for a stored path. *)
Definition digest_request (path : string) : Event :=
  EvInvoke "calculate_file_hash" {| arg_filePath := path |}.

(** The notification [calculateHash] shows for a rejected request, [text]
    being what [String(error)] gave. *)
Definition failure_notification (text : string) : NotificationOptions :=
  {| title := calculateHash_title; message := text; type := "error" |}.

(** What [selectFile]'s empty [catch] makes of a completion of its [try]
    block: a thrown value is dropped and the function returns. *)
Definition caught (c : Completion unit) : Completion unit :=
  match c with
  | Thrown _ => Returned tt
  | Returned _ | Pending => c
  end.

(** Every write to [filePath] in [evs] stores a non-empty path, the one
    the picker has just resolved with.  [picked] is the selection of the
    latest [open] call so far, if it resolved with one. *)
Fixpoint picker_backed (picked : option string) (evs : list Event) : Prop :=
  match evs with
  | [] => True
  | EvSetFilePath v :: rest =>
      picked = Some v /\ v <> "" /\ picker_backed picked rest
  | EvOpen _ :: rest => picker_backed None rest
  | EvOpenSettled (Fulfilled selected) :: rest => picker_backed selected rest
  | EvOpenSettled (Rejected _) :: rest => picker_backed None rest
  | _ :: rest => picker_backed picked rest
  end.

(** The dialogs opened. *)
Fixpoint opens (evs : list Event) : list OpenDialogOptions :=
  match evs with
  | [] => []
  | EvOpen options :: rest => options :: opens rest
  | _ :: rest => opens rest
  end.

(** The values backend requests were rejected with. *)
Fixpoint rejections (evs : list Event) : list JsValue :=
  match evs with
  | [] => []
  | EvInvokeSettled (Rejected e) :: rest => e :: rejections rest
  | _ :: rest => rejections rest
  end.

(** What the template shows of the state: the read-only input bound to
    [filePath], and the result row, which exists only under
    [v-if="hashResult"] and then displays [hashResult]. *)
Record Rendered : Type := {
  path_input : string;
  hash_row : option string
}.

Definition render (s : State) : Rendered :=
  {| path_input := filePath s;
     hash_row := if js_not (hashResult s) then None else Some (hashResult s) |}.

(** A request for the digest of a path that is not empty. *)
Definition digest_request_for_path (r : string * InvokeArgs) : Prop :=
  fst r = "calculate_file_hash" /\ arg_filePath (snd r) <> "".

(** The non-empty paths the picker resolved with. *)
Fixpoint selections (evs : list Event) : list string :=
  match evs with
  | [] => []
  | EvOpenSettled (Fulfilled (Some path)) :: rest =>
      if js_not path then selections rest else path :: selections rest
  | _ :: rest => selections rest
  end.

(** The digest a submission was answered with; empty while the request is
    pending, when it was rejected, and when nothing was submitted. *)
Definition answered_digest (sub : option Submission) : string :=
  match sub with
  | Some sub =>
      match answer sub with
      | Some (Fulfilled digest) => digest
      | _ => ""
      end
  | None => ""
  end.

(** Runs one after the other: each run starts in the state the run
    before it completed in, by returning or by throwing.  A run that is
    suspended at an [await] ends the sequence, for a run that started
    before the suspended one resumed would overlap it.  The result is the
    state reached and the history, the events of each run, oldest first. *)
Fixpoint run_sequence (acts : list Action) (s : State)
  : State * list (list Event) :=
  match acts with
  | [] => (s, [])
  | a :: acts' =>
      match action_body a s with
      | (Pending, s', evs) => (s', [evs])
      | (_, s', evs) =>
          match run_sequence acts' s' with
          | (s'', history) => (s'', evs :: history)
          end
      end
  end.

(** The page shows the answer to the submission [latest]: [hashResult] is
    the digest it was answered with, and its path is the stored one. *)
Definition shows_latest (s : State) (latest : option Submission) : Prop :=
  hashResult s = answered_digest latest /\
  (forall sub, latest = Some sub -> submitted sub = filePath s).

(** The texts [String(e)] gives for the values backend requests were
    rejected with, where it gives one. *)
Fixpoint printable_rejections (evs : list Event) : list string :=
  match evs with
  | [] => []
  | EvInvokeSettled (Rejected e) :: rest =>
      match js_String e with
      | inl text => text :: printable_rejections rest
      | inr _ => printable_rejections rest
      end
  | _ :: rest => printable_rejections rest
  end.

(** ** What each function does, case by case *)

Lemma js_not_empty_iff (s : string) : js_not s = true <-> s = "".
Proof. destruct s; simpl; split; congruence. Qed.

Lemma js_not_nonempty (s : string) : s <> "" -> js_not s = false.
Proof. destruct s; simpl; congruence. Qed.

(** [calculateHash], with the monad unfolded. *)
Lemma calculateHash_eq (s : State) :
  calculateHash s =
    if js_not (filePath s) then (Returned tt, s, [])
    else
      match backend s with
      | [] =>
          (Pending, with_hashResult "" s,
           [EvSetHashResult ""; digest_request (filePath s)])
      | Fulfilled digest :: rest =>
          (Returned tt,
           with_hashResult digest (with_backend rest (with_hashResult "" s)),
           [EvSetHashResult ""; digest_request (filePath s);
            EvInvokeSettled (Fulfilled digest); EvSetHashResult digest])
      | Rejected e :: rest =>
          match js_String e with
          | inl text =>
              (Returned tt,
               with_backend rest (with_hashResult "" s),
               [EvSetHashResult ""; digest_request (filePath s);
                EvInvokeSettled (Rejected e);
                EvNotification (failure_notification text)])
          | inr thrown =>
              (Thrown thrown,
               with_backend rest (with_hashResult "" s),
               [EvSetHashResult ""; digest_request (filePath s);
                EvInvokeSettled (Rejected e)])
          end
      end.
Proof.
  unfold calculateHash, bind, get_filePath.
  destruct (js_not (filePath s)); [reflexivity|].
  unfold try_catch, bind, get_filePath, invoke, set_hashResult, to_String; simpl.
  destruct (backend s) as [|[digest|e] rest]; try reflexivity.
  destruct (js_String e); reflexivity.
Qed.

(** The [try] block of [selectFile], with the monad unfolded. *)
Lemma selectFile_try_eq (s : State) :
  selectFile_try s =
    match dialog s with
    | [] => (Pending, s, [EvOpen selectFile_options])
    | Rejected e :: rest =>
        (Thrown e, with_dialog rest s,
         [EvOpen selectFile_options; EvOpenSettled (Rejected e)])
    | Fulfilled None :: rest =>
        (Returned tt, with_dialog rest s,
         [EvOpen selectFile_options; EvOpenSettled (Fulfilled None)])
    | Fulfilled (Some path) :: rest =>
        if js_not path then
          (Returned tt, with_dialog rest s,
           [EvOpen selectFile_options; EvOpenSettled (Fulfilled (Some path))])
        else
          match calculateHash (with_filePath path (with_dialog rest s)) with
          | (c, s', evs) =>
              (c, s',
               [EvOpen selectFile_options;
                EvOpenSettled (Fulfilled (Some path));
                EvSetFilePath path] ++ evs)
          end
    end.
Proof.
  unfold selectFile_try, bind, open.
  destruct (dialog s) as [|[[path|]|e] rest]; try reflexivity.
  destruct (js_not path) eqn:Hpath; [reflexivity|].
  unfold set_filePath.
  rewrite calculateHash_eq; simpl. rewrite Hpath.
  destruct (backend s) as [|[digest|e] rest']; try reflexivity.
  destruct (js_String e); reflexivity.
Qed.

(** [selectFile], with the monad unfolded: what its [try] block does, a
    thrown value being dropped by the [catch]. *)
Lemma selectFile_eq (s : State) :
  selectFile s =
    match dialog s with
    | [] => (Pending, s, [EvOpen selectFile_options])
    | Rejected e :: rest =>
        (Returned tt, with_dialog rest s,
         [EvOpen selectFile_options; EvOpenSettled (Rejected e)])
    | Fulfilled None :: rest =>
        (Returned tt, with_dialog rest s,
         [EvOpen selectFile_options; EvOpenSettled (Fulfilled None)])
    | Fulfilled (Some path) :: rest =>
        if js_not path then
          (Returned tt, with_dialog rest s,
           [EvOpen selectFile_options; EvOpenSettled (Fulfilled (Some path))])
        else
          match calculateHash (with_filePath path (with_dialog rest s)) with
          | (c, s', evs) =>
              (caught c, s',
               [EvOpen selectFile_options;
                EvOpenSettled (Fulfilled (Some path));
                EvSetFilePath path] ++ evs)
          end
    end.
Proof.
  unfold selectFile, try_catch. rewrite selectFile_try_eq.
  destruct (dialog s) as [|[[path|]|e] rest]; try reflexivity.
  destruct (js_not path) eqn:Hpath; [reflexivity|].
  rewrite calculateHash_eq; simpl. rewrite Hpath.
  destruct (backend s) as [|[digest|e] rest']; try reflexivity.
  destruct (js_String e); reflexivity.
Qed.

(** ** Single runs *)

(** Rewrites a run of either function into its unfolded form. *)
Ltac unfold_run H :=
  repeat first
    [ rewrite selectFile_eq in H
    | rewrite calculateHash_eq in H
    | progress simpl in H ].

Ltac finish_run H :=
  inversion H; subst; clear H; simpl; repeat split; auto 12.

(** Splits on what [String(e)] gives, where the goal asks. *)
Ltac String_cases :=
  try match goal with
      | |- context [js_String ?e] =>
          let Hstring := fresh "Hstring" in
          destruct (js_String e) as [?text|?thrown] eqn:Hstring
      end.

(** Splits a goal about a run of [selectFile] from [s] into its cases. *)
Ltac selectFile_cases s :=
  rewrite ?selectFile_eq;
  let path := fresh "path" in
  let Hpath := fresh "Hpath" in
  destruct (dialog s) as [|[[path|]|?e] ?rest];
  [ | destruct (js_not path) eqn:Hpath;
      [ | assert (path <> "") by (intros ->; discriminate);
          rewrite ?calculateHash_eq; simpl; rewrite ?Hpath;
          destruct (backend s) as [|[?digest|?e] ?rest'];
          [ | | String_cases ] ]
    | | ];
  simpl.

(** Splits a goal about a run of [calculateHash] from [s] into its cases. *)
Ltac calculateHash_cases s :=
  rewrite ?calculateHash_eq;
  let Hpath := fresh "Hpath" in
  destruct (js_not (filePath s)) eqn:Hpath;
  [ | assert (filePath s <> "")
        by (let H := fresh in intros H; rewrite H in Hpath; discriminate);
      destruct (backend s) as [|[?digest|?e] ?rest];
      [ | | String_cases ] ];
  simpl.

(** C1.  When the picker resolves with a non-empty path [p] and the digest
    request that follows is fulfilled with [d], [selectFile] completes with
    [filePath = p] and [hashResult = d], the string the backend returned;
    the one request of the run is the digest request for [p]. *)
Theorem selectFile_stores_path_and_digest
    (s : State) (p d : string)
    (rest_dialog : list (Settled (option string)))
    (rest_backend : list (Settled string))
    (c : Completion unit) (s' : State) (evs : list Event) :
  dialog s = Fulfilled (Some p) :: rest_dialog ->
  p <> "" ->
  backend s = Fulfilled d :: rest_backend ->
  selectFile s = (c, s', evs) ->
  c = Returned tt /\
  filePath s' = p /\
  hashResult s' = d /\
  requests evs = [("calculate_file_hash", {| arg_filePath := p |})] /\
  In (EvInvokeSettled (Fulfilled d)) evs.
Proof.
  intros Hdialog Hp Hbackend Hrun.
  rewrite selectFile_eq, Hdialog, (js_not_nonempty _ Hp) in Hrun.
  rewrite calculateHash_eq in Hrun; simpl in Hrun.
  rewrite (js_not_nonempty _ Hp), Hbackend in Hrun.
  finish_run Hrun.
Qed.

(** C2, as amended.  In a run of [selectFile] in which the picker resolved
    with [P] and the digest request was rejected with [e]: afterwards
    [hashResult] is empty, [filePath] is [P], and the request was the one
    for [P].  When [String(e)] yields a string, exactly one notification was
    shown, an error whose message is that string; when [String(e)] throws,
    none was shown.  Either way the run returns. *)
Theorem selectFile_digest_failure
    (s : State) (P : string) (e : JsValue)
    (c : Completion unit) (s' : State) (evs : list Event) :
  selectFile s = (c, s', evs) ->
  In (EvOpenSettled (Fulfilled (Some P))) evs ->
  In (EvInvokeSettled (Rejected e)) evs ->
  c = Returned tt /\
  hashResult s' = "" /\
  filePath s' = P /\
  requests evs = [("calculate_file_hash", {| arg_filePath := P |})] /\
  match js_String e with
  | inl text =>
      notifications evs =
        [ {| title := calculateHash_title; message := text; type := "error" |} ]
  | inr _ => notifications evs = []
  end.
Proof.
  intros Hrun Hpick Hfail.
  rewrite selectFile_eq in Hrun.
  destruct (dialog s) as [|[[path|]|e1] rest].
  - inversion Hrun; subst. simpl in Hfail. intuition discriminate.
  - destruct (js_not path) eqn:Hpath.
    + inversion Hrun; subst. simpl in Hfail. intuition discriminate.
    + rewrite calculateHash_eq in Hrun; simpl in Hrun. rewrite Hpath in Hrun.
      destruct (backend s) as [|[digest|e2] rest'];
        [ | | destruct (js_String e2) as [text|thrown] eqn:Hstring ];
        inversion Hrun; subst; clear Hrun;
        unfold digest_request in Hpick, Hfail; simpl in Hpick, Hfail;
        try (exfalso; intuition discriminate);
        assert (path = P) by (intuition congruence);
        assert (e2 = e) by (intuition congruence);
        subst; rewrite Hstring; simpl; auto.
  - inversion Hrun; subst. simpl in Hfail. intuition discriminate.
  - inversion Hrun; subst. simpl in Hfail. intuition discriminate.
Qed.

(** C4.  When the picker resolves with no selection, [selectFile] completes
    with [filePath] and [hashResult] as they were, and issues no request. *)
Theorem selectFile_cancelled
    (s : State) (rest_dialog : list (Settled (option string)))
    (c : Completion unit) (s' : State) (evs : list Event) :
  dialog s = Fulfilled None :: rest_dialog ->
  selectFile s = (c, s', evs) ->
  c = Returned tt /\
  filePath s' = filePath s /\
  hashResult s' = hashResult s /\
  requests evs = [].
Proof.
  intros Hdialog Hrun.
  rewrite selectFile_eq, Hdialog in Hrun.
  finish_run Hrun.
Qed.

(** C5.  With no path stored, [calculateHash] returns at once: no backend
    call, no event at all, and the state, [hashResult] included, is the
    one it started from. *)
Theorem calculateHash_without_path
    (s : State) (c : Completion unit) (s' : State) (evs : list Event) :
  filePath s = "" ->
  calculateHash s = (c, s', evs) ->
  requests evs = [] /\
  hashResult s' = hashResult s /\
  c = Returned tt /\ s' = s /\ evs = [].
Proof.
  intros Hpath Hrun.
  rewrite calculateHash_eq, Hpath in Hrun; simpl in Hrun.
  finish_run Hrun.
Qed.

(** C9.  When the picker resolves with the empty string, [selectFile]
    behaves as on cancellation: [filePath] and [hashResult] keep their
    values, nothing is written and no request is issued. *)
Theorem selectFile_empty_selection
    (s : State) (rest_dialog : list (Settled (option string)))
    (c : Completion unit) (s' : State) (evs : list Event) :
  dialog s = Fulfilled (Some "") :: rest_dialog ->
  selectFile s = (c, s', evs) ->
  c = Returned tt /\
  filePath s' = filePath s /\
  hashResult s' = hashResult s /\
  requests evs = [] /\
  filePath_writes evs = [] /\
  hashResult_writes evs = [] /\
  (forall c0 s0 evs0,
      selectFile (with_dialog (Fulfilled None :: rest_dialog) s) = (c0, s0, evs0) ->
      c0 = c /\ s0 = s').
Proof.
  intros Hdialog Hrun.
  rewrite selectFile_eq, Hdialog in Hrun; simpl in Hrun.
  inversion Hrun; subst; clear Hrun; simpl.
  repeat split; auto;
    rewrite selectFile_eq in H; simpl in H; inversion H; subst; reflexivity.
Qed.

(** C6.  Two runs of [selectFile], the second started where the first
    completed, with selections [p1] then [p2] and digests [d1] then [d2]:
    at the end [filePath = p2] and [hashResult = d2]; the second run wrote
    to [hashResult] the empty string and then [d2], nothing else. *)
Theorem second_selection_replaces_first
    (s : State) (p1 p2 d1 d2 : string)
    (rest_dialog : list (Settled (option string)))
    (rest_backend : list (Settled string))
    (c1 c2 : Completion unit) (s1 s2 : State) (evs1 evs2 : list Event) :
  dialog s = Fulfilled (Some p1) :: Fulfilled (Some p2) :: rest_dialog ->
  p1 <> "" -> p2 <> "" ->
  backend s = Fulfilled d1 :: Fulfilled d2 :: rest_backend ->
  selectFile s = (c1, s1, evs1) ->
  selectFile s1 = (c2, s2, evs2) ->
  c1 = Returned tt /\ c2 = Returned tt /\
  hashResult s2 = d2 /\
  filePath s2 = p2 /\
  hashResult_writes evs2 = [""; d2].
Proof.
  intros Hdialog Hp1 Hp2 Hbackend Hrun1 Hrun2.
  rewrite selectFile_eq, Hdialog, (js_not_nonempty _ Hp1) in Hrun1.
  rewrite calculateHash_eq in Hrun1; simpl in Hrun1.
  rewrite (js_not_nonempty _ Hp1), Hbackend in Hrun1.
  inversion Hrun1; subst; clear Hrun1.
  rewrite selectFile_eq in Hrun2; simpl in Hrun2.
  rewrite (js_not_nonempty _ Hp2) in Hrun2.
  rewrite calculateHash_eq in Hrun2; simpl in Hrun2.
  rewrite (js_not_nonempty _ Hp2) in Hrun2.
  finish_run Hrun2.
Qed.

(** C7.  When the picker call itself fails with [e], [selectFile] still
    completes normally: no notification, no request, no write, and
    [filePath] and [hashResult] as they were.  A cancelled picker, from the
    same state, gives the same completion, the same final state and the
    same (empty) notifications, requests and writes. *)
Theorem selectFile_picker_failure
    (s : State) (e : JsValue) (rest_dialog : list (Settled (option string)))
    (c : Completion unit) (s' : State) (evs : list Event) :
  dialog s = Rejected e :: rest_dialog ->
  selectFile s = (c, s', evs) ->
  c = Returned tt /\
  notifications evs = [] /\
  requests evs = [] /\
  filePath_writes evs = [] /\
  hashResult_writes evs = [] /\
  filePath s' = filePath s /\
  hashResult s' = hashResult s /\
  (forall c0 s0 evs0,
      selectFile (with_dialog (Fulfilled None :: rest_dialog) s) = (c0, s0, evs0) ->
      c0 = c /\ s0 = s' /\
      notifications evs0 = notifications evs /\
      requests evs0 = requests evs /\
      filePath_writes evs0 = filePath_writes evs /\
      hashResult_writes evs0 = hashResult_writes evs).
Proof.
  intros Hdialog Hrun.
  rewrite selectFile_eq, Hdialog in Hrun.
  inversion Hrun; subst; clear Hrun; simpl.
  repeat split; auto;
    rewrite selectFile_eq in H; simpl in H; inversion H; subst; reflexivity.
Qed.


(** ** Sessions *)

Lemma perform_eq (x : Session) (a : Action)
    (c : Completion unit) (s : State) (evs : list Event) :
  action_body a (page x) = (c, s, evs) ->
  perform x a = {| page := s; log := log x ++ evs |}.
Proof.
  intros Hrun. unfold perform, run. rewrite Hrun. reflexivity.
Qed.

(** One run keeps [shows_latest], its own request, if it issued one,
    becoming the latest. *)
Lemma action_shows_latest (a : Action) (s : State) (latest : option Submission) :
  shows_latest s latest ->
  shows_latest (snd (fst (action_body a s)))
               (later_submission latest (snd (action_body a s))).
Proof.
  unfold shows_latest, later_submission. intros [Hshown Hpath].
  destruct a; simpl action_body.
  - selectFile_cases s; split; auto;
      intros sub Hsub; inversion Hsub; reflexivity.
  - calculateHash_cases s; split; auto;
      intros sub Hsub; inversion Hsub; reflexivity.
Qed.

Lemma run_sequence_shows_latest (acts : list Action) :
  forall (s : State) (latest : option Submission),
    shows_latest s latest ->
    shows_latest (fst (run_sequence acts s))
                 (fold_left later_submission (snd (run_sequence acts s)) latest).
Proof.
  induction acts as [|a acts IH]; intros s latest Hs; simpl.
  - exact Hs.
  - pose proof (action_shows_latest a s latest Hs) as Hrun.
    destruct (action_body a s) as [[c s'] evs]; simpl in Hrun.
    assert (Hrest := IH s' (later_submission latest evs) Hrun).
    destruct c; simpl;
      try (destruct (run_sequence acts s') as [s'' history]; exact Hrest).
    exact Hrun.
Qed.

Lemma mounted_shows_latest
    (d : list (Settled (option string))) (b : list (Settled string)) :
  shows_latest (page (mounted d b)) None.
Proof.
  split; [reflexivity | discriminate].
Qed.

(** C3.  In every state reached from the freshly mounted page by runs of
    [selectFile] and [calculateHash] that follow one another, a non-empty
    [hashResult] is the digest returned for the most recently submitted
    path, which is the stored [filePath].  And every run of [calculateHash]
    with a non-empty [filePath] clears [hashResult] before its request: the
    state in which it waits for the backend, which is the state of the run
    as long as the backend has not answered, has [hashResult] empty; the
    events of the run begin with the write of the empty string followed by
    the digest request, its only request; and in the state the run ends in,
    [hashResult] is the digest this request was answered with, empty if it
    was not fulfilled. *)
Theorem hashResult_is_latest_digest :
  (forall (d : list (Settled (option string))) (b : list (Settled string))
          (acts : list Action),
      hashResult (fst (run_sequence acts (page (mounted d b)))) <> "" ->
      latest_submission (snd (run_sequence acts (page (mounted d b)))) =
        Some {| submitted := filePath (fst (run_sequence acts (page (mounted d b))));
                answer := Some (Fulfilled
                  (hashResult (fst (run_sequence acts (page (mounted d b)))))) |}) /\
  (forall s : State,
      filePath s <> "" ->
      exists waiting rest,
        calculateHash (with_backend [] s) =
          (Pending, waiting, [EvSetHashResult ""; digest_request (filePath s)]) /\
        hashResult waiting = "" /\
        filePath waiting = filePath s /\
        snd (calculateHash s) =
          EvSetHashResult "" :: digest_request (filePath s) :: rest /\
        requests rest = [] /\
        hashResult (snd (fst (calculateHash s))) =
          answered_digest (request_of_run (snd (calculateHash s)))).
Proof.
  split.
  - intros d b acts.
    destruct (run_sequence_shows_latest acts _ _ (mounted_shows_latest d b))
      as [Hdigest Hpath].
    unfold latest_submission.
    destruct (run_sequence acts (page (mounted d b))) as [s history].
    simpl in *.
    destruct (fold_left later_submission history None)
      as [[path [[digest|e]|]]|]; simpl in Hdigest; try congruence.
    intros _. rewrite Hdigest, <- (Hpath _ eq_refl). reflexivity.
  - intros s Hpath.
    exists (with_hashResult "" (with_backend [] s)).
    rewrite !calculateHash_eq; simpl. rewrite (js_not_nonempty _ Hpath).
    destruct (backend s) as [|[digest|e] rest];
      [ | | destruct (js_String e) ];
      eexists; repeat split; reflexivity.
Qed.

Lemma picker_backed_app (evs1 evs2 : list Event) :
  forall picked,
    picker_backed picked evs1 ->
    (forall picked', picker_backed picked' evs2) ->
    picker_backed picked (evs1 ++ evs2).
Proof.
  induction evs1 as [|ev evs1 IH]; intros picked H1 H2; simpl.
  - apply H2.
  - destruct ev as [v|v|o|[selected|e]|cmd args|r|n]; simpl in *;
      try (apply IH; assumption).
    destruct H1 as (Hpicked & Hv & Hrest).
    repeat split; try assumption. apply IH; assumption.
Qed.

(** The events of one run are [picker_backed] from any starting point,
    since a run of [selectFile] opens with its own [open] call and
    [calculateHash] does not write to [filePath]. *)
Lemma action_picker_backed (a : Action) (s : State) :
  forall picked, picker_backed picked (snd (action_body a s)).
Proof.
  intros picked. destruct a; simpl.
  - rewrite selectFile_eq.
    destruct (dialog s) as [|[[path|]|e] rest]; simpl; auto.
    destruct (js_not path) eqn:Hpath; simpl; auto.
    rewrite calculateHash_eq; simpl. rewrite Hpath.
    assert (path <> "") by (intros ->; discriminate).
    destruct (backend s) as [|[digest|e] rest']; String_cases; simpl; auto.
  - rewrite calculateHash_eq.
    destruct (js_not (filePath s)); simpl; auto.
    destruct (backend s) as [|[digest|e] rest]; String_cases; simpl; auto.
Qed.

(** One run either leaves [filePath] alone or is a [selectFile] whose
    picker resolved with the new, non-empty value. *)
Lemma action_filePath (a : Action) (s : State)
    (c : Completion unit) (s' : State) (evs : list Event) :
  action_body a s = (c, s', evs) ->
  filePath s' = filePath s \/
  (a = SelectFile /\ filePath s' <> "" /\
   In (EvOpenSettled (Fulfilled (Some (filePath s')))) evs).
Proof.
  intros Hrun. destruct a; simpl in Hrun.
  - rewrite selectFile_eq in Hrun.
    destruct (dialog s) as [|[[path|]|e] rest];
      try (inversion Hrun; subst; left; reflexivity).
    destruct (js_not path) eqn:Hpath;
      try (inversion Hrun; subst; left; reflexivity).
    assert (path <> "") by (intros ->; discriminate).
    rewrite calculateHash_eq in Hrun; simpl in Hrun. rewrite Hpath in Hrun.
    destruct (backend s) as [|[digest|e] rest'];
      [ | | destruct (js_String e) ];
      inversion Hrun; subst; clear Hrun; right; simpl; auto.
  - rewrite calculateHash_eq in Hrun.
    destruct (js_not (filePath s)).
    + inversion Hrun; subst; left; reflexivity.
    + destruct (backend s) as [|[digest|e] rest];
        [ | | destruct (js_String e) ];
        inversion Hrun; subst; left; reflexivity.
Qed.

Lemma perform_all_picker_backed (acts : list Action) :
  forall x, picker_backed None (log x) ->
            picker_backed None (log (perform_all acts x)).
Proof.
  induction acts as [|a acts IH]; intros x Hx; simpl.
  - exact Hx.
  - apply IH.
    destruct (action_body a (page x)) as [[c s'] evs] eqn:Hrun.
    rewrite (perform_eq x a c s' evs Hrun); simpl.
    apply picker_backed_app; [exact Hx|].
    intros picked'.
    pose proof (action_picker_backed a (page x) picked') as Hevs.
    rewrite Hrun in Hevs. exact Hevs.
Qed.

Lemma perform_all_keeps_filePath (acts : list Action) :
  forall x, filePath (page x) <> "" ->
            filePath (page (perform_all acts x)) <> "".
Proof.
  induction acts as [|a acts IH]; intros x Hx; simpl.
  - exact Hx.
  - apply IH.
    destruct (action_body a (page x)) as [[c s'] evs] eqn:Hrun.
    rewrite (perform_eq x a c s' evs Hrun); simpl.
    destruct (action_filePath a (page x) c s' evs Hrun) as [Hsame|(_ & Hne & _)].
    + rewrite Hsame. exact Hx.
    + exact Hne.
Qed.

(** C8.  Over any sequence of runs from the freshly mounted page, every
    write to [filePath] stores a non-empty path that the picker has just
    resolved with.  Once [filePath] is non-empty it stays non-empty,
    whatever runs follow.  And a run that changes [filePath] is a run of
    [selectFile] whose picker resolved with the new value. *)
Theorem filePath_only_from_picker :
  (forall (d : list (Settled (option string))) (b : list (Settled string))
          (acts : list Action),
      picker_backed None (log (perform_all acts (mounted d b)))) /\
  (forall (x : Session) (acts : list Action),
      filePath (page x) <> "" ->
      filePath (page (perform_all acts x)) <> "") /\
  (forall (x : Session) (a : Action),
      filePath (page (perform x a)) <> filePath (page x) ->
      a = SelectFile /\
      exists evs,
        log (perform x a) = log x ++ evs /\
        In (EvOpenSettled (Fulfilled (Some (filePath (page (perform x a)))))) evs).
Proof.
  split; [|split].
  - intros d b acts. apply perform_all_picker_backed. exact I.
  - intros x acts. apply perform_all_keeps_filePath.
  - intros x a Hchanged.
    destruct (action_body a (page x)) as [[c s'] evs] eqn:Hrun.
    rewrite (perform_eq x a c s' evs Hrun) in *; simpl in *.
    destruct (action_filePath a (page x) c s' evs Hrun) as [Hsame|(Ha & _ & Hin)].
    + contradiction.
    + split; [exact Ha|]. exists evs. split; [reflexivity|exact Hin].
Qed.

(** ** Further properties of the page *)

Lemma requests_app (evs1 evs2 : list Event) :
  requests (evs1 ++ evs2) = requests evs1 ++ requests evs2.
Proof.
  induction evs1 as [|ev evs1 IH]; simpl; [reflexivity|].
  destruct ev; simpl; rewrite IH; reflexivity.
Qed.

Lemma notifications_app (evs1 evs2 : list Event) :
  notifications (evs1 ++ evs2) = notifications evs1 ++ notifications evs2.
Proof.
  induction evs1 as [|ev evs1 IH]; simpl; [reflexivity|].
  destruct ev; simpl; rewrite IH; reflexivity.
Qed.

Lemma printable_rejections_app (evs1 evs2 : list Event) :
  printable_rejections (evs1 ++ evs2) =
    printable_rejections evs1 ++ printable_rejections evs2.
Proof.
  induction evs1 as [|ev evs1 IH]; simpl; [reflexivity|].
  destruct ev as [v|v|o|r|cmd args|[digest|e]|n]; simpl;
    try (rewrite IH; reflexivity).
  destruct (js_String e); simpl; rewrite IH; reflexivity.
Qed.

(** X1.  [calculateHash] leaves [filePath] alone: after any run the stored
    path is the one it started with, nothing was written to it, no dialog
    was opened and no answer of the picker was consumed. *)
Theorem calculateHash_keeps_filePath (s : State) :
  filePath (snd (fst (calculateHash s))) = filePath s /\
  filePath_writes (snd (calculateHash s)) = [] /\
  opens (snd (calculateHash s)) = [] /\
  dialog (snd (fst (calculateHash s))) = dialog s.
Proof.
  calculateHash_cases s; repeat split; reflexivity.
Qed.

(** X2.  One run does at most one thing of each kind: a run of [selectFile]
    opens exactly one dialog, with the single-file options; any run issues
    at most one backend request and shows at most one notification, and a
    notification only when it issued a request. *)
Theorem one_request_per_run (a : Action) (s : State) :
  opens (snd (selectFile s)) = [selectFile_options] /\
  length (requests (snd (action_body a s))) <= 1 /\
  length (notifications (snd (action_body a s))) <=
    length (requests (snd (action_body a s))).
Proof.
  split.
  - selectFile_cases s; reflexivity.
  - destruct a; simpl action_body.
    + selectFile_cases s; split; repeat constructor.
    + calculateHash_cases s; split; repeat constructor.
Qed.

(** A request issued by one run is the digest request for the path the
    run leaves in [filePath], which is not empty. *)
Lemma action_requests (a : Action) (s : State) :
  requests (snd (action_body a s)) = [] \/
  (requests (snd (action_body a s)) =
     [("calculate_file_hash",
       {| arg_filePath := filePath (snd (fst (action_body a s))) |})] /\
   filePath (snd (fst (action_body a s))) <> "").
Proof.
  destruct a; simpl action_body.
  - selectFile_cases s; auto.
  - calculateHash_cases s; auto.
Qed.

Lemma perform_log (x : Session) (a : Action) :
  log (perform x a) = log x ++ snd (action_body a (page x)) /\
  page (perform x a) = snd (fst (action_body a (page x))).
Proof.
  destruct (action_body a (page x)) as [[c s'] evs] eqn:Hrun.
  rewrite (perform_eq x a c s' evs Hrun). split; reflexivity.
Qed.

(** X3.  Whatever runs follow the mounting of the page, every request sent
    to the backend is the command [calculate_file_hash] with a path that is
    not empty. *)
Theorem requests_carry_a_path
    (d : list (Settled (option string))) (b : list (Settled string))
    (acts : list Action) :
  Forall digest_request_for_path
         (requests (log (perform_all acts (mounted d b)))).
Proof.
  assert (Hgen : forall x,
             Forall digest_request_for_path (requests (log x)) ->
             Forall digest_request_for_path (requests (log (perform_all acts x)))).
  { induction acts as [|a acts IH]; intros x Hx; simpl; [exact Hx|].
    apply IH.
    destruct (perform_log x a) as [Hlog _]. rewrite Hlog, requests_app.
    apply Forall_app. split; [exact Hx|].
    destruct (action_requests a (page x)) as [Hnone|[Hone Hpath]].
    - rewrite Hnone. constructor.
    - rewrite Hone. constructor; [|constructor].
      split; [reflexivity|exact Hpath]. }
  apply Hgen. simpl. constructor.
Qed.

(** The notifications of one run are those of its rejected requests whose
    value [String] could convert. *)
Lemma action_notifications (a : Action) (s : State) :
  notifications (snd (action_body a s)) =
    map failure_notification (printable_rejections (snd (action_body a s))).
Proof.
  destruct a; simpl action_body.
  - selectFile_cases s; rewrite ?Hstring; reflexivity.
  - calculateHash_cases s; rewrite ?Hstring; reflexivity.
Qed.

(** X4.  Over any sequence of runs from the mounted page, the notifications
    shown are exactly the failure notifications of those rejected backend
    requests whose value [e] has a string [String(e)], one for each, in the
    same order and with that string as message.  Nothing else notifies, a
    failing picker included; a rejection on which [String(e)] throws is
    notified nowhere. *)
Theorem notifications_mirror_rejections
    (d : list (Settled (option string))) (b : list (Settled string))
    (acts : list Action) :
  notifications (log (perform_all acts (mounted d b))) =
    map failure_notification
        (printable_rejections (log (perform_all acts (mounted d b)))).
Proof.
  assert (Hgen : forall x,
             notifications (log x) =
               map failure_notification (printable_rejections (log x)) ->
             notifications (log (perform_all acts x)) =
               map failure_notification
                   (printable_rejections (log (perform_all acts x)))).
  { induction acts as [|a acts IH]; intros x Hx; simpl; [exact Hx|].
    apply IH.
    destruct (perform_log x a) as [Hlog _].
    rewrite Hlog, notifications_app, printable_rejections_app, map_app, Hx.
    rewrite action_notifications. reflexivity. }
  apply Hgen. reflexivity.
Qed.

(** X5.  The result row never shows a left-over of an earlier request.
    If the row shows [h] after a run, then either the backend returned [h]
    during this very run, or the run issued no request at all and the row
    already showed [h] before. *)
Theorem displayed_digest_origin (a : Action) (s : State) (h : string) :
  hash_row (render (snd (fst (action_body a s)))) = Some h ->
  In (EvInvokeSettled (Fulfilled h)) (snd (action_body a s)) \/
  (requests (snd (action_body a s)) = [] /\ hash_row (render s) = Some h).
Proof.
  destruct a; simpl action_body.
  - selectFile_cases s; unfold render; simpl; intros Hshown;
      try discriminate; auto.
    destruct (js_not digest); [discriminate|].
    inversion Hshown; subst. left. auto 10.
  - calculateHash_cases s; unfold render; simpl; intros Hshown;
      try discriminate; auto.
    destruct (js_not digest); [discriminate|].
    inversion Hshown; subst. left. auto 10.
Qed.

(** X6.  A run that is suspended at an [await] is either a [selectFile]
    still waiting for the picker, with the state untouched, or is waiting
    for the backend with the result row hidden, its one request being the
    digest request for the stored path, and nothing notified. *)
Theorem suspended_run (a : Action) (s : State) :
  fst (fst (action_body a s)) = Pending ->
  (a = SelectFile /\
   snd (fst (action_body a s)) = s /\
   snd (action_body a s) = [EvOpen selectFile_options]) \/
  (hash_row (render (snd (fst (action_body a s)))) = None /\
   requests (snd (action_body a s)) =
     [("calculate_file_hash",
       {| arg_filePath := filePath (snd (fst (action_body a s))) |})] /\
   notifications (snd (action_body a s)) = []).
Proof.
  destruct a; simpl action_body.
  - selectFile_cases s; intros Hpending; try discriminate; auto.
  - calculateHash_cases s; intros Hpending; try discriminate; auto.
Qed.

(** X7.  A backend that answers with the empty string is taken as a
    success: the run returns, nothing is notified, and the result row stays
    hidden, as if no digest had been computed. *)
Theorem empty_digest_shows_nothing (a : Action) (s : State) :
  In (EvInvokeSettled (Fulfilled "")) (snd (action_body a s)) ->
  fst (fst (action_body a s)) = Returned tt /\
  notifications (snd (action_body a s)) = [] /\
  hashResult (snd (fst (action_body a s))) = "" /\
  hash_row (render (snd (fst (action_body a s)))) = None.
Proof.
  destruct a; simpl action_body.
  - selectFile_cases s; unfold digest_request; simpl; intros Hin;
      try (exfalso; intuition discriminate).
    assert (digest = "") by (intuition congruence). subst. auto.
  - calculateHash_cases s; unfold digest_request; simpl; intros Hin;
      try (exfalso; intuition discriminate).
    assert (digest = "") by (intuition congruence). subst. auto.
Qed.

(** One run keeps: a non-empty [hashResult] comes with a non-empty
    [filePath]. *)
Lemma action_digest_with_path (a : Action) (s : State) :
  (hashResult s <> "" -> filePath s <> "") ->
  hashResult (snd (fst (action_body a s))) <> "" ->
  filePath (snd (fst (action_body a s))) <> "".
Proof.
  destruct a; simpl action_body.
  - selectFile_cases s; auto.
  - calculateHash_cases s; auto.
Qed.

(** X8.  Whatever runs follow the mounting of the page, the result row is
    never shown beside an empty path input. *)
Theorem digest_shown_only_with_path
    (d : list (Settled (option string))) (b : list (Settled string))
    (acts : list Action) (h : string) :
  hash_row (render (page (perform_all acts (mounted d b)))) = Some h ->
  path_input (render (page (perform_all acts (mounted d b)))) <> "".
Proof.
  assert (Hgen : forall x,
             (hashResult (page x) <> "" -> filePath (page x) <> "") ->
             hashResult (page (perform_all acts x)) <> "" ->
             filePath (page (perform_all acts x)) <> "").
  { induction acts as [|a acts IH]; intros x Hx; simpl; [exact Hx|].
    apply IH.
    destruct (perform_log x a) as [_ Hpage]. rewrite Hpage.
    apply action_digest_with_path. exact Hx. }
  unfold render; simpl. intros Hshown.
  apply Hgen.
  - simpl. congruence.
  - intros Hempty. rewrite Hempty in Hshown. discriminate.
Qed.

Lemma selections_app (evs1 evs2 : list Event) :
  selections (evs1 ++ evs2) = selections evs1 ++ selections evs2.
Proof.
  induction evs1 as [|ev evs1 IH]; simpl; [reflexivity|].
  destruct ev as [v|v|o|[[path|]|e]|cmd args|r|n]; simpl;
    try (rewrite IH; reflexivity).
  destruct (js_not path); simpl; rewrite IH; reflexivity.
Qed.

(** One run either sees no selection and keeps [filePath], or sees exactly
    one and stores it. *)
Lemma action_selections (a : Action) (s : State) :
  (selections (snd (action_body a s)) = [] /\
   filePath (snd (fst (action_body a s))) = filePath s) \/
  selections (snd (action_body a s)) = [filePath (snd (fst (action_body a s)))].
Proof.
  destruct a; simpl action_body.
  - selectFile_cases s; rewrite ?Hpath; auto.
  - calculateHash_cases s; auto.
Qed.

(** X10.  Whatever runs follow the mounting of the page, the path input
    shows the latest non-empty path the picker resolved with, and is empty
    if there was none: cancelled, failed and empty picks, and the backend's
    answers, do not disturb it. *)
Theorem path_input_is_latest_selection
    (d : list (Settled (option string))) (b : list (Settled string))
    (acts : list Action) :
  path_input (render (page (perform_all acts (mounted d b)))) =
    last (selections (log (perform_all acts (mounted d b)))) "".
Proof.
  assert (Hgen : forall x,
             filePath (page x) = last (selections (log x)) "" ->
             filePath (page (perform_all acts x)) =
               last (selections (log (perform_all acts x))) "").
  { induction acts as [|a acts IH]; intros x Hx; simpl; [exact Hx|].
    apply IH.
    destruct (perform_log x a) as [Hlog Hpage].
    rewrite Hlog, Hpage, selections_app.
    destruct (action_selections a (page x)) as [[Hnone Hsame]|Hone].
    - rewrite Hnone, Hsame, app_nil_r. exact Hx.
    - rewrite Hone. symmetry. apply last_last. }
  unfold render; simpl. apply Hgen. reflexivity.
Qed.

(** X11.  Over runs that follow one another from the mounted page, each
    started once the run before it has completed, [hashResult] is
    determined by the latest run that issued a request: it is the digest
    that request was fulfilled with, and it is empty when that request is
    still pending, when it was rejected, and when no request was made yet. *)
Theorem hashResult_is_answer_to_latest_request
    (d : list (Settled (option string))) (b : list (Settled string))
    (acts : list Action) :
  hashResult (fst (run_sequence acts (page (mounted d b)))) =
    answered_digest
      (latest_submission (snd (run_sequence acts (page (mounted d b))))).
Proof.
  destruct (run_sequence_shows_latest acts _ _ (mounted_shows_latest d b))
    as [Hdigest _].
  exact Hdigest.
Qed.

End FileHash.

Arguments Fulfilled {JsValue A} _.
Arguments Rejected {JsValue A} _.
Arguments Returned {JsValue A} _.
Arguments Thrown {JsValue A} _.
Arguments Pending {JsValue A}.
Arguments EvSetFilePath {JsValue} _.
Arguments EvSetHashResult {JsValue} _.
Arguments EvOpen {JsValue} _.
Arguments EvOpenSettled {JsValue} _.
Arguments EvInvoke {JsValue} _ _.
Arguments EvInvokeSettled {JsValue} _.
Arguments EvNotification {JsValue} _.
Arguments filePath {JsValue} _.
Arguments hashResult {JsValue} _.
Arguments dialog {JsValue} _.
Arguments backend {JsValue} _.
Arguments page {JsValue} _.
Arguments log {JsValue} _.
Arguments with_dialog {JsValue} _ _.
Arguments notifications {JsValue} _.
Arguments requests {JsValue} _.
Arguments filePath_writes {JsValue} _.
Arguments hashResult_writes {JsValue} _.
Arguments latest_submission {JsValue} _.
Arguments request_of_run {JsValue} _.
Arguments run_sequence {JsValue} _ _ _.
Arguments printable_rejections {JsValue} _ _.
Arguments picker_backed {JsValue} _ _.
Arguments perform_all {JsValue} _ _ _.
Arguments perform {JsValue} _ _ _.
Arguments render {JsValue} _.
Arguments opens {JsValue} _.
Arguments rejections {JsValue} _.
Arguments selections {JsValue} _.

(** ** The theorems at concrete runs

    Rejection values are strings here, and [String(e)] of a string is the
    string itself. *)

(** The user selects [/tmp/a.txt] and the backend answers ["e3b0c4"]. *)
Lemma selectFile_stores_path_and_digest_witness :
  match selectFile string (fun e => inl e)
          {| filePath := ""; hashResult := "";
             dialog := [Fulfilled (Some "/tmp/a.txt")];
             backend := [Fulfilled "e3b0c4"] |}
  with
  | (c, s', evs) =>
      c = Returned tt /\
      filePath s' = "/tmp/a.txt" /\
      hashResult s' = "e3b0c4" /\
      requests evs =
        [("calculate_file_hash", {| arg_filePath := "/tmp/a.txt" |})] /\
      In (EvInvokeSettled (Fulfilled "e3b0c4")) evs
  end.
Proof.
  apply (selectFile_stores_path_and_digest string (fun e => inl e)
           {| filePath := ""; hashResult := "";
              dialog := [Fulfilled (Some "/tmp/a.txt")];
              backend := [Fulfilled "e3b0c4"] |}
           "/tmp/a.txt" "e3b0c4" [] []);
    [reflexivity | discriminate | reflexivity | reflexivity].
Defined.

(** With [/tmp/a.txt] and its digest on display, the user selects
    [/tmp/b.txt] and the backend rejects with ["file not found"]. *)
Lemma selectFile_digest_failure_witness :
  match selectFile string (fun e => inl e)
          {| filePath := "/tmp/a.txt"; hashResult := "e3b0c4";
             dialog := [Fulfilled (Some "/tmp/b.txt")];
             backend := [Rejected "file not found"] |}
  with
  | (c, s', evs) =>
      c = Returned tt /\
      hashResult s' = "" /\
      filePath s' = "/tmp/b.txt" /\
      requests evs =
        [("calculate_file_hash", {| arg_filePath := "/tmp/b.txt" |})] /\
      notifications evs =
        [ {| title := calculateHash_title;
             message := "file not found";
             type := "error" |} ]
  end.
Proof.
  exact (selectFile_digest_failure string (fun e => inl e)
           {| filePath := "/tmp/a.txt"; hashResult := "e3b0c4";
              dialog := [Fulfilled (Some "/tmp/b.txt")];
              backend := [Rejected "file not found"] |}
           "/tmp/b.txt" "file not found" (Returned tt) _ _
           eq_refl
           (or_intror (or_introl eq_refl))
           (or_intror (or_intror (or_intror (or_intror
              (or_intror (or_introl eq_refl))))))).
Defined.

(** The same selection, but the backend rejects with the object
    [{"toString": 1}]: the picker resolved, the request was rejected, and
    no notification was shown, where the claim as first stated promises
    one. *)
Lemma selectFile_digest_failure_counterexample :
  In (EvOpenSettled (Fulfilled (Some "/tmp/b.txt")))
     (snd (selectFile Rejection Rejection_String
             {| filePath := "/tmp/a.txt"; hashResult := "e3b0c4";
                dialog := [Fulfilled (Some "/tmp/b.txt")];
                backend := [Rejected ToStringIsOne] |})) /\
  In (EvInvokeSettled (Rejected ToStringIsOne))
     (snd (selectFile Rejection Rejection_String
             {| filePath := "/tmp/a.txt"; hashResult := "e3b0c4";
                dialog := [Fulfilled (Some "/tmp/b.txt")];
                backend := [Rejected ToStringIsOne] |})) /\
  ~ (exists n,
        notifications
          (snd (selectFile Rejection Rejection_String
                  {| filePath := "/tmp/a.txt"; hashResult := "e3b0c4";
                     dialog := [Fulfilled (Some "/tmp/b.txt")];
                     backend := [Rejected ToStringIsOne] |})) = [n]).
Proof.
  split; [|split].
  - simpl. auto.
  - simpl. auto 10.
  - intros [n Hn]. discriminate Hn.
Qed.

(** The user closes the picker without choosing. *)
Lemma selectFile_cancelled_witness :
  match selectFile string (fun e => inl e)
          {| filePath := "/tmp/a.txt"; hashResult := "e3b0c4";
             dialog := [Fulfilled None];
             backend := [Fulfilled "unused"] |}
  with
  | (c, s', evs) =>
      c = Returned tt /\
      filePath s' = "/tmp/a.txt" /\
      hashResult s' = "e3b0c4" /\
      requests evs = []
  end.
Proof.
  apply (selectFile_cancelled string (fun e => inl e)
           {| filePath := "/tmp/a.txt"; hashResult := "e3b0c4";
              dialog := [Fulfilled None];
              backend := [Fulfilled "unused"] |}
           []);
    reflexivity.
Defined.

(** [calculateHash] on a page that has no path yet but, for the sake of the
    example, a value in [hashResult]. *)
Lemma calculateHash_without_path_witness :
  match calculateHash string (fun e => inl e)
          {| filePath := ""; hashResult := "e3b0c4";
             dialog := []; backend := [Fulfilled "unused"] |}
  with
  | (c, s', evs) =>
      requests evs = [] /\
      hashResult s' = "e3b0c4" /\
      c = Returned tt /\
      s' = {| filePath := ""; hashResult := "e3b0c4";
              dialog := []; backend := [Fulfilled "unused"] |} /\
      evs = []
  end.
Proof.
  apply (calculateHash_without_path string (fun e => inl e)
           {| filePath := ""; hashResult := "e3b0c4";
              dialog := []; backend := [Fulfilled "unused"] |});
    reflexivity.
Defined.

(** Two selections in a row, both answered. *)
Lemma second_selection_replaces_first_witness :
  match selectFile string (fun e => inl e)
          {| filePath := ""; hashResult := "";
             dialog := [Fulfilled (Some "/tmp/a.txt"); Fulfilled (Some "/tmp/b.txt")];
             backend := [Fulfilled "e3b0c4"; Fulfilled "9f86d0"] |}
  with
  | (c1, s1, evs1) =>
      match selectFile string (fun e => inl e) s1 with
      | (c2, s2, evs2) =>
          c1 = Returned tt /\ c2 = Returned tt /\
          hashResult s2 = "9f86d0" /\
          filePath s2 = "/tmp/b.txt" /\
          hashResult_writes evs2 = [""; "9f86d0"]
      end
  end.
Proof.
  eapply (second_selection_replaces_first string (fun e => inl e)
           {| filePath := ""; hashResult := "";
              dialog := [Fulfilled (Some "/tmp/a.txt"); Fulfilled (Some "/tmp/b.txt")];
              backend := [Fulfilled "e3b0c4"; Fulfilled "9f86d0"] |}
           "/tmp/a.txt" "/tmp/b.txt" "e3b0c4" "9f86d0" [] []
           (Returned tt)
           (Returned tt)
           {| filePath := "/tmp/a.txt"; hashResult := "e3b0c4";
              dialog := [Fulfilled (Some "/tmp/b.txt")];
              backend := [Fulfilled "9f86d0"] |});
    reflexivity || discriminate.
Defined.

(** The picker call fails with ["dialog unavailable"]. *)
Lemma selectFile_picker_failure_witness :
  match selectFile string (fun e => inl e)
          {| filePath := "/tmp/a.txt"; hashResult := "e3b0c4";
             dialog := [Rejected "dialog unavailable"];
             backend := [Fulfilled "unused"] |}
  with
  | (c, s', evs) =>
      c = Returned tt /\
      notifications evs = [] /\
      requests evs = [] /\
      filePath_writes evs = [] /\
      hashResult_writes evs = [] /\
      filePath s' = "/tmp/a.txt" /\
      hashResult s' = "e3b0c4"
  end.
Proof.
  pose proof (selectFile_picker_failure string (fun e => inl e)
           {| filePath := "/tmp/a.txt"; hashResult := "e3b0c4";
              dialog := [Rejected "dialog unavailable"];
              backend := [Fulfilled "unused"] |}
           "dialog unavailable" [] (Returned tt) _ _ eq_refl eq_refl) as H.
  simpl in H. simpl. repeat split; apply H.
Defined.

(** The picker resolves with the empty string. *)
Lemma selectFile_empty_selection_witness :
  match selectFile string (fun e => inl e)
          {| filePath := "/tmp/a.txt"; hashResult := "e3b0c4";
             dialog := [Fulfilled (Some "")];
             backend := [Fulfilled "unused"] |}
  with
  | (c, s', evs) =>
      c = Returned tt /\
      filePath s' = "/tmp/a.txt" /\
      hashResult s' = "e3b0c4" /\
      requests evs = [] /\
      filePath_writes evs = [] /\
      hashResult_writes evs = []
  end.
Proof.
  pose proof (selectFile_empty_selection string (fun e => inl e)
           {| filePath := "/tmp/a.txt"; hashResult := "e3b0c4";
              dialog := [Fulfilled (Some "")];
              backend := [Fulfilled "unused"] |}
           [] (Returned tt) _ _ eq_refl eq_refl) as H.
  simpl in H. simpl. repeat split; apply H.
Defined.

(** After one answered selection the page shows the digest of the path
    submitted last; and a recalculation for [/tmp/a.txt] clears the stale
    value before it asks the backend. *)
Lemma hashResult_is_latest_digest_witness :
  latest_submission
    (snd (run_sequence (fun e => inl e) [SelectFile]
            (page (mounted string [Fulfilled (Some "/tmp/a.txt")]
                                  [Fulfilled "e3b0c4"])))) =
    Some {| submitted := "/tmp/a.txt"; answer := Some (Fulfilled "e3b0c4") |} /\
  exists waiting rest,
    calculateHash string (fun e => inl e)
      (with_backend string []
         {| filePath := "/tmp/a.txt"; hashResult := "stale";
            dialog := []; backend := [Fulfilled "e3b0c4"] |}) =
      (Pending, waiting,
       [EvSetHashResult ""; digest_request string "/tmp/a.txt"]) /\
    hashResult waiting = "" /\
    filePath waiting = "/tmp/a.txt" /\
    snd (calculateHash string (fun e => inl e)
           {| filePath := "/tmp/a.txt"; hashResult := "stale";
              dialog := []; backend := [Fulfilled "e3b0c4"] |}) =
      EvSetHashResult "" :: digest_request string "/tmp/a.txt" :: rest /\
    requests rest = [] /\
    hashResult
      (snd (fst (calculateHash string (fun e => inl e)
                   {| filePath := "/tmp/a.txt"; hashResult := "stale";
                      dialog := []; backend := [Fulfilled "e3b0c4"] |}))) =
      answered_digest string
        (request_of_run
           (snd (calculateHash string (fun e => inl e)
                   {| filePath := "/tmp/a.txt"; hashResult := "stale";
                      dialog := []; backend := [Fulfilled "e3b0c4"] |}))).
Proof.
  destruct (hashResult_is_latest_digest string (fun e => inl e))
    as [Hshown Hclears].
  split.
  - apply (Hshown [Fulfilled (Some "/tmp/a.txt")] [Fulfilled "e3b0c4"] [SelectFile]).
    simpl. discriminate.
  - apply (Hclears {| filePath := "/tmp/a.txt"; hashResult := "stale";
                      dialog := []; backend := [Fulfilled "e3b0c4"] |}).
    simpl. discriminate.
Defined.

(** A selection, a recalculation and a cancelled picker: every write to
    [filePath] came from the picker, and the path survives the later runs;
    the first run, which changed [filePath], was a [selectFile]. *)
Lemma filePath_only_from_picker_witness :
  picker_backed None
    (log (perform_all (fun e => inl e) [SelectFile; CalculateHash; SelectFile]
            (mounted string [Fulfilled (Some "/tmp/a.txt"); Fulfilled None]
                            [Fulfilled "e3b0c4"; Rejected "file not found"]))) /\
  filePath (page (perform_all (fun e => inl e) [CalculateHash; SelectFile]
                    {| page := {| filePath := "/tmp/a.txt"; hashResult := "e3b0c4";
                                  dialog := [Fulfilled None];
                                  backend := [Rejected "file not found"] |};
                       log := [] |})) <> "" /\
  SelectFile = SelectFile /\
  exists evs,
    log (perform (fun e => inl e)
           (mounted string [Fulfilled (Some "/tmp/a.txt")] [Fulfilled "e3b0c4"])
           SelectFile) =
      log (mounted string [Fulfilled (Some "/tmp/a.txt")] [Fulfilled "e3b0c4"]) ++ evs /\
    In (EvOpenSettled (Fulfilled (Some "/tmp/a.txt"))) evs.
Proof.
  destruct (filePath_only_from_picker string (fun e => inl e))
    as (Hbacked & Hkept & Hchanged).
  split; [|split].
  - apply Hbacked.
  - apply Hkept. simpl. discriminate.
  - apply (Hchanged
             (mounted string [Fulfilled (Some "/tmp/a.txt")] [Fulfilled "e3b0c4"])
             SelectFile).
    simpl. discriminate.
Defined.



(** The scenario of the specification, from mounting the page: [/tmp/a.txt]
    is answered with ["e3b0c4"], then [/tmp/b.txt] is rejected with
    ["file not found"]. *)
Example two_selections_scenario :
  let x := perform_all (fun e => inl e) [SelectFile; SelectFile]
             (mounted string
                [Fulfilled (Some "/tmp/a.txt"); Fulfilled (Some "/tmp/b.txt")]
                [Fulfilled "e3b0c4"; Rejected "file not found"]) in
  filePath (page x) = "/tmp/b.txt" /\
  hashResult (page x) = "" /\
  notifications (log x) =
    [ {| title := calculateHash_title; message := "file not found"; type := "error" |} ] /\
  requests (log x) =
    [ ("calculate_file_hash", {| arg_filePath := "/tmp/a.txt" |});
      ("calculate_file_hash", {| arg_filePath := "/tmp/b.txt" |}) ] /\
  hashResult_writes (log x) = [""; "e3b0c4"; ""].
Proof. repeat split. Qed.

(** ** Further properties at concrete runs *)

(** A second selection, answered with ["9f86d0"], replaces the digest on
    display. *)
Lemma displayed_digest_origin_witness :
  In (EvInvokeSettled (Fulfilled "9f86d0"))
     (snd (action_body string (fun e => inl e) SelectFile
             {| filePath := "/tmp/a.txt"; hashResult := "e3b0c4";
                dialog := [Fulfilled (Some "/tmp/b.txt")];
                backend := [Fulfilled "9f86d0"] |})) \/
  (requests
     (snd (action_body string (fun e => inl e) SelectFile
             {| filePath := "/tmp/a.txt"; hashResult := "e3b0c4";
                dialog := [Fulfilled (Some "/tmp/b.txt")];
                backend := [Fulfilled "9f86d0"] |})) = [] /\
   hash_row (render (JsValue := string)
                    {| filePath := "/tmp/a.txt"; hashResult := "e3b0c4";
                       dialog := [Fulfilled (Some "/tmp/b.txt")];
                       backend := [Fulfilled "9f86d0"] |}) = Some "9f86d0").
Proof.
  apply (displayed_digest_origin string (fun e => inl e) SelectFile
           {| filePath := "/tmp/a.txt"; hashResult := "e3b0c4";
              dialog := [Fulfilled (Some "/tmp/b.txt")];
              backend := [Fulfilled "9f86d0"] |}
           "9f86d0").
  reflexivity.
Defined.

(** A recalculation whose request has not been answered yet. *)
Lemma suspended_run_witness :
  (CalculateHash = SelectFile /\
   snd (fst (action_body string (fun e => inl e) CalculateHash
               {| filePath := "/tmp/a.txt"; hashResult := "e3b0c4";
                  dialog := []; backend := [] |})) =
     {| filePath := "/tmp/a.txt"; hashResult := "e3b0c4";
        dialog := []; backend := [] |} /\
   snd (action_body string (fun e => inl e) CalculateHash
          {| filePath := "/tmp/a.txt"; hashResult := "e3b0c4";
             dialog := []; backend := [] |}) =
     [EvOpen selectFile_options]) \/
  (hash_row (render (snd (fst (action_body string (fun e => inl e) CalculateHash
                                 {| filePath := "/tmp/a.txt"; hashResult := "e3b0c4";
                                    dialog := []; backend := [] |})))) = None /\
   requests (snd (action_body string (fun e => inl e) CalculateHash
                    {| filePath := "/tmp/a.txt"; hashResult := "e3b0c4";
                       dialog := []; backend := [] |})) =
     [("calculate_file_hash", {| arg_filePath := "/tmp/a.txt" |})] /\
   notifications (snd (action_body string (fun e => inl e) CalculateHash
                         {| filePath := "/tmp/a.txt"; hashResult := "e3b0c4";
                            dialog := []; backend := [] |})) = []).
Proof.
  apply (suspended_run string (fun e => inl e) CalculateHash
           {| filePath := "/tmp/a.txt"; hashResult := "e3b0c4";
              dialog := []; backend := [] |}).
  reflexivity.
Defined.

(** The backend answers the request for [/tmp/a.txt] with the empty
    string. *)
Lemma empty_digest_shows_nothing_witness :
  fst (fst (action_body string (fun e => inl e) CalculateHash
              {| filePath := "/tmp/a.txt"; hashResult := "e3b0c4";
                 dialog := []; backend := [Fulfilled ""] |})) = Returned tt /\
  notifications (snd (action_body string (fun e => inl e) CalculateHash
                        {| filePath := "/tmp/a.txt"; hashResult := "e3b0c4";
                           dialog := []; backend := [Fulfilled ""] |})) = [] /\
  hashResult (snd (fst (action_body string (fun e => inl e) CalculateHash
                          {| filePath := "/tmp/a.txt"; hashResult := "e3b0c4";
                             dialog := []; backend := [Fulfilled ""] |}))) = "" /\
  hash_row (render (snd (fst (action_body string (fun e => inl e) CalculateHash
                                {| filePath := "/tmp/a.txt"; hashResult := "e3b0c4";
                                   dialog := []; backend := [Fulfilled ""] |})))) = None.
Proof.
  apply (empty_digest_shows_nothing string (fun e => inl e) CalculateHash
           {| filePath := "/tmp/a.txt"; hashResult := "e3b0c4";
              dialog := []; backend := [Fulfilled ""] |}).
  simpl. auto 10.
Defined.

(** After one answered selection the row is shown, beside the path. *)
Lemma digest_shown_only_with_path_witness :
  path_input
    (render (page (perform_all (fun e => inl e) [SelectFile]
                     (mounted string [Fulfilled (Some "/tmp/a.txt")]
                                     [Fulfilled "e3b0c4"])))) <> "".
Proof.
  apply (digest_shown_only_with_path string (fun e => inl e)
           [Fulfilled (Some "/tmp/a.txt")] [Fulfilled "e3b0c4"] [SelectFile]
           "e3b0c4").
  reflexivity.
Defined.

(** ** The application shell *)

(** [prefix] is the prefix test: [s] begins with [p] exactly when [s] is
    [p] followed by something. *)
Lemma prefix_append (p s : string) :
  String.prefix p s = true <-> exists rest, s = (p ++ rest)%string.
Proof.
  revert s. induction p as [|c p IH]; intros s.
  - split; [intros _; exists s; reflexivity | intros _].
    destruct s; reflexivity.
  - destruct s as [|c' s]; simpl.
    + split; [discriminate | intros [rest Hrest]; discriminate].
    + destruct (Ascii.ascii_dec c c') as [->|Hne].
      * rewrite IH. split; intros [rest Hrest]; exists rest.
        -- rewrite Hrest. reflexivity.
        -- inversion Hrest. reflexivity.
      * split; [discriminate | intros [rest Hrest]].
        inversion Hrest. congruence.
Qed.

(** X9.  The menu marks the file-hash entry exactly on the routes whose
    path begins with [/file-hash], whatever follows the prefix, and marks
    nothing on every other route; the marked entry is one of [examples]. *)
Theorem default_active_by_prefix (route_path : string) :
  (App.default_active route_path = Some "/file-hash" <->
   exists rest, route_path = ("/file-hash" ++ rest)%string) /\
  (App.default_active route_path = None <->
   ~ exists rest, route_path = ("/file-hash" ++ rest)%string) /\
  (forall example,
      App.activeExample route_path = Some example ->
      In example (App.examples route_path) /\
      App.isActive example = true /\
      App.default_active route_path = Some (App.path example)).
Proof.
  unfold App.default_active, App.activeExample, App.examples, App.startsWith.
  cbn [find App.isActive].
  destruct (String.prefix "/file-hash" route_path) eqn:Hprefix; cbn [App.path].
  - apply prefix_append in Hprefix. split; [|split].
    + split; [intros _; exact Hprefix | reflexivity].
    + split; [discriminate | intros Hnone; contradiction].
    + intros example Hfound. inversion Hfound; subst; clear Hfound.
      cbn. auto.
  - assert (Hnone : ~ exists rest, route_path = ("/file-hash" ++ rest)%string).
    { intros Hex. apply prefix_append in Hex. congruence. }
    split; [|split].
    + split; [discriminate | intros Hex; contradiction].
    + split; [intros _; exact Hnone | reflexivity].
    + intros example Hfound. discriminate.
Qed.

(** On [/file-hashes], which only shares the prefix, the entry is marked;
    on the root route it is not. *)
Lemma default_active_by_prefix_witness :
  App.default_active "/file-hashes" = Some "/file-hash" /\
  App.default_active "/" = None.
Proof.
  split.
  - apply (proj1 (default_active_by_prefix "/file-hashes")).
    exists "es". reflexivity.
  - apply (proj1 (proj2 (default_active_by_prefix "/"))).
    intros [rest Hrest]. discriminate.
Defined.

(** ** A longer session

    A pick, a cancelled picker, an empty pick, a failing picker and a second
    pick whose request is rejected: the input follows the picks, the row
    follows the latest request. *)
Example five_clicks_scenario :
  let x := perform_all (fun e => inl e)
             [SelectFile; SelectFile; SelectFile; SelectFile; SelectFile]
             (mounted string
                [Fulfilled (Some "/tmp/a.txt"); Fulfilled None;
                 Fulfilled (Some ""); Rejected "dialog unavailable";
                 Fulfilled (Some "/tmp/b.txt")]
                [Fulfilled "e3b0c4"; Rejected "file not found"]) in
  render (page x) = {| path_input := "/tmp/b.txt"; hash_row := None |} /\
  selections (log x) = ["/tmp/a.txt"; "/tmp/b.txt"] /\
  rejections (log x) = ["file not found"] /\
  length (opens (log x)) = 5 /\
  length (requests (log x)) = 2.
Proof. repeat split. Qed.
